(** * MultimodalProcessor (src/App.js): file ingestion and query pipeline

    A shallow embedding of the non-presentational part of the component:
    [getFileCategory], [extractTextFromPdf], [processFile],
    [handleFileUpload], [removeFile], [buildContext] and [handleQuery],
    and of the returned markup what depends on the state ([render]),
    followed by the properties stated about them.

    Conventions.
    - A JavaScript string is a sequence of code units; it is modelled by
      [string], one [ascii] per code unit (code units 0..255).
    - A promise that has settled is an [outcome]: fulfilled with a value or
      rejected with an error, of which only the [message] is ever read.
    - The platform (pdf.js, [fetch], the clock, the engine's wording of a
      TypeError) is passed to the functions that use it. *)

From Stdlib Require Import Strings.Byte Ascii String SpecFloat.
From stdpp Require Import base strings list gmap.

#[local] Open Scope string_scope.
#[local] Set Warnings "-register-all".
#[local] Arguments String.append !s1 s2 / : simpl nomatch.

(** ** Strings *)

(** The line feed written [\n] in the source. *)
Definition LF : string := String (ascii_of_nat 10) EmptyString.

(** [s.startsWith(p)] *)
Definition startsWith (s p : string) : bool := String.prefix p s.

(** Canonicalize of a case-insensitive, non-unicode RegExp, as far as the
    patterns of this file can tell: [a-z] go to [A-Z].  A code unit outside
    ASCII never canonicalizes to an ASCII one, so it is left as it is: it
    equals no character of an ASCII pattern either way. *)
Definition canonicalize (c : ascii) : ascii :=
  let n := nat_of_ascii c in
  if (97 <=? n)%nat && (n <=? 122)%nat then ascii_of_nat (n - 32) else c.

Fixpoint foldCase (s : string) : string :=
  match s with
  | EmptyString => EmptyString
  | String c s' => String (canonicalize c) (foldCase s')
  end.

(** *** The regular expressions of [getFileCategory]

    The patterns are all of the shape [/\.(a|b|c)$/i]: literal characters,
    alternation, sequence and the end-of-input assertion.  The matcher is
    the backtracking matcher of the language definition, in continuation
    style: [matchK r s k] matches [r] at the start of [s] and hands the
    remaining input to [k]. *)
Inductive regex :=
  | Lit (w : string)
  | Alt (r1 r2 : regex)
  | Seq (r1 r2 : regex)
  | EndOfInput.

(** Consume the literal [w] at the start of [s], ignoring case. *)
Fixpoint matchLit (w s : string) : option string :=
  match w, s with
  | EmptyString, _ => Some s
  | String _ _, EmptyString => None
  | String c w', String d s' =>
      if Ascii.eqb (canonicalize c) (canonicalize d) then matchLit w' s' else None
  end.

Fixpoint matchK (r : regex) (s : string) (k : string -> bool) : bool :=
  match r with
  | Lit w => match matchLit w s with Some rest => k rest | None => false end
  | Alt r1 r2 => matchK r1 s k || matchK r2 s k
  | Seq r1 r2 => matchK r1 s (fun rest => matchK r2 rest k)
  | EndOfInput => match s with EmptyString => k s | String _ _ => false end
  end.

(** [s.match(r)] for a pattern without the global flag, read for its
    truthiness only: a match is attempted at index 0, 1, ..., length. *)
Fixpoint regexMatch (r : regex) (s : string) : bool :=
  matchK r s (fun _ => true)
  || match s with
     | EmptyString => false
     | String _ s' => regexMatch r s'
     end.

(** [a|b|...] *)
Fixpoint alternatives (w : string) (ws : list string) : regex :=
  match ws with
  | [] => Lit w
  | w' :: ws' => Alt (Lit w) (alternatives w' ws')
  end.

(** [/\.(w|ws...)$/i] *)
Definition extensionPattern (w : string) (ws : list string) : regex :=
  Seq (Lit ".") (Seq (alternatives w ws) EndOfInput).

(** ** Category inference *)

Inductive Category := text | image | audio | video | other.

(** The string the source returns for each category. *)
Definition categoryName (c : Category) : string :=
  match c with
  | text => "text" | image => "image" | audio => "audio"
  | video => "video" | other => "other"
  end.

Definition textPattern : regex := extensionPattern "txt" ["md"; "pdf"; "docx"; "pptx"].
Definition imagePattern : regex := extensionPattern "png" ["jpg"; "jpeg"; "gif"; "webp"].
Definition audioPattern : regex := extensionPattern "mp3" ["wav"; "ogg"].
Definition videoPattern : regex := extensionPattern "mp4" ["webm"; "mov"].

Definition getFileCategory (type name : string) : Category :=
  if startsWith type "text/" || regexMatch textPattern name then text
  else if startsWith type "image/" || regexMatch imagePattern name then image
  else if startsWith type "audio/" || regexMatch audioPattern name then audio
  else if startsWith type "video/" || regexMatch videoPattern name then video
  else other.

(** *** Category inference in the words of the specification *)

(** [name] ends, ignoring case, in [suffix]. *)
Definition endsWithIgnoreCase (name suffix : string) : Prop :=
  exists stem tail, name = stem +:+ tail /\ foldCase tail = foldCase suffix.

(** The declared type starts with [prefix], or the file name ends,
    ignoring case, in a dot followed by one of [exts]. *)
Definition indicates (prefix : string) (exts : list string) (type name : string) : Prop :=
  startsWith type prefix = true \/
  exists e, e ∈ exts /\ endsWithIgnoreCase name ("." +:+ e).

Definition textExts : list string := ["txt"; "md"; "pdf"; "docx"; "pptx"].
Definition imageExts : list string := ["png"; "jpg"; "jpeg"; "gif"; "webp"].
Definition audioExts : list string := ["mp3"; "wav"; "ogg"].
Definition videoExts : list string := ["mp4"; "webm"; "mov"].

Definition indicatesText := indicates "text/" textExts.
Definition indicatesImage := indicates "image/" imageExts.
Definition indicatesAudio := indicates "audio/" audioExts.
Definition indicatesVideo := indicates "video/" videoExts.

(** ** More of the string library *)

(** WhiteSpace and LineTerminator code units (of 0..255): TAB, LF, VT, FF,
    CR, SP and NBSP. *)
Definition isWhiteSpace (c : ascii) : bool :=
  let n := nat_of_ascii c in
  ((9 <=? n)%nat && (n <=? 13)%nat) || (n =? 32)%nat || (n =? 160)%nat.

Fixpoint trimStart (s : string) : string :=
  match s with
  | EmptyString => EmptyString
  | String c s' => if isWhiteSpace c then trimStart s' else s
  end.

Fixpoint trimEnd (s : string) : string :=
  match s with
  | EmptyString => EmptyString
  | String c s' =>
      match trimEnd s' with
      | EmptyString => if isWhiteSpace c then EmptyString else String c EmptyString
      | t => String c t
      end
  end.

(** [s.trim()] *)
Definition trim (s : string) : string := trimEnd (trimStart s).

(** [s.slice(start, end)] for non-negative integer arguments. *)
Definition slice (s : string) (start stop : nat) : string :=
  let len := String.length s in
  let from := Nat.min start len in
  let to := Nat.min stop len in
  substring from (to - from) s.

(** [a.join(sep)] on an array of strings. *)
Definition join (sep : string) (a : list string) : string := String.concat sep a.

(** The empty string is the only falsy string. *)
Definition isEmpty (s : string) : bool :=
  match s with EmptyString => true | String _ _ => false end.

(** ** Settled promises *)

Inductive outcome (A : Type) :=
  | Fulfilled (a : A)
  | Rejected (message : string).
Arguments Fulfilled {A} a.
Arguments Rejected {A} message.

Definition bind {A B : Type} (o : outcome A) (f : A -> outcome B) : outcome B :=
  match o with
  | Fulfilled a => f a
  | Rejected m => Rejected m
  end.

Notation "'await' x <- o ; k" := (bind o (fun x => k))
  (at level 10, x name, o at level 100, k at level 200).

(** ** PDF text extraction *)

(** What is consumed of pdf.js: a document has a page count and hands out
    pages by number; a page hands out its text content, a list of items
    carrying a [str]. *)
Record TextItem := { str : string }.
Record TextContent := { items : list TextItem }.
Record PDFPageProxy := { getTextContent : outcome TextContent }.
Record PDFDocumentProxy := {
  numPages : nat;
  getPage : nat -> outcome PDFPageProxy
}.

(** The loop of [extractTextFromPdf], from counter [i] with [todo]
    iterations left ([todo = numPages - i]).  Besides the text it returns
    the page numbers it has asked [getPage] for, in the order of the calls. *)
Fixpoint extractFrom (pdf : PDFDocumentProxy) (todo i : nat) (txt : string)
    (asked : list nat) : list nat * outcome string :=
  match todo with
  | O => (asked, Fulfilled txt)
  | S todo' =>
      let asked' := (asked ++ [i + 1])%list in
      match getPage pdf (i + 1) with
      | Rejected m => (asked', Rejected m)
      | Fulfilled page =>
          match getTextContent page with
          | Rejected m => (asked', Rejected m)
          | Fulfilled content =>
              extractFrom pdf todo' (i + 1)
                (txt +:+ join " " (map str (items content)) +:+ LF) asked'
          end
      end
  end.

Definition extractTextFromPdfTraced
    (getDocument : list Byte.byte -> outcome PDFDocumentProxy)
    (arrayBuffer : list Byte.byte) : list nat * outcome string :=
  match getDocument arrayBuffer with
  | Rejected m => ([], Rejected m)
  | Fulfilled pdf => extractFrom pdf (numPages pdf) 0 "" []
  end.

Definition extractTextFromPdf
    (getDocument : list Byte.byte -> outcome PDFDocumentProxy)
    (arrayBuffer : list Byte.byte) : outcome string :=
  snd (extractTextFromPdfTraced getDocument arrayBuffer).

(** ** Ingested files *)

(** The content of an ingested file: the extracted text of a PDF, or the
    buffer as read. *)
Inductive Content :=
  | Text (s : string)
  | ArrayBuffer (bytes : list Byte.byte).

(** The browser's [File]. *)
Module File.
Record t := { name : string; type : string; size : N }.
End File.

Module IngestedFile.
Record t := {
  id : Z;
  name : string;
  type : string;
  size : N;
  content : option Content;
  category : Category
}.
End IngestedFile.

(** [processFile]: [read] is how the FileReader ends, [now] what
    [Date.now()] answers.  The promise settles ([Some]) or stays pending
    ([None]): a rejection inside the asynchronous [onload] handler reaches
    neither [resolve] nor [reject]. *)
Definition processFile
    (getDocument : list Byte.byte -> outcome PDFDocumentProxy)
    (read : outcome (list Byte.byte)) (now : Z) (file : File.t)
    : option (outcome IngestedFile.t) :=
  match read with
  | Rejected _ => Some (Rejected "File read error")
  | Fulfilled content =>
      if String.eqb (File.type file) "application/pdf" then
        match extractTextFromPdf getDocument content with
        | Rejected _ => None
        | Fulfilled txt =>
            Some (Fulfilled
              {| IngestedFile.id := now;
                 IngestedFile.name := File.name file;
                 IngestedFile.type := File.type file;
                 IngestedFile.size := File.size file;
                 IngestedFile.content := Some (Text txt);
                 IngestedFile.category :=
                   getFileCategory (File.type file) (File.name file) |})
        end
      else
        Some (Fulfilled
          {| IngestedFile.id := now;
             IngestedFile.name := File.name file;
             IngestedFile.type := File.type file;
             IngestedFile.size := File.size file;
             IngestedFile.content := Some (ArrayBuffer content);
             IngestedFile.category :=
               getFileCategory (File.type file) (File.name file) |})
  end.

(** ** Values of the language, as far as a parsed response body has them *)

Inductive JsValue :=
  | JNull
  | JBool (b : bool)
  | JNum (x : spec_float)
  | JStr (s : string)
  | JArr (elements : list JsValue)
  | JObj (properties : gmap string JsValue).

(** ToBoolean *)
Definition truthy (v : JsValue) : bool :=
  match v with
  | JNull => false
  | JBool b => b
  | JNum (S754_zero _) | JNum S754_nan => false
  | JNum _ => true
  | JStr s => negb (isEmpty s)
  | JArr _ | JObj _ => true
  end.

(** [data.answer]: [None] is undefined.  Reading a property of null throws
    a TypeError, whose message is the engine's. *)
Definition answerOf (nullMessage : string) (data : JsValue) : outcome (option JsValue) :=
  match data with
  | JNull => Rejected nullMessage
  | JObj properties => Fulfilled (properties !! "answer")
  | JBool _ | JNum _ | JStr _ | JArr _ => Fulfilled None
  end.

(** [v || 'No response found'] *)
Definition orNoResponse (v : option JsValue) : JsValue :=
  match v with
  | Some a => if truthy a then a else JStr "No response found"
  | None => JStr "No response found"
  end.

(** ** Component state *)

Record State := {
  files : list IngestedFile.t;
  query : string;
  response : JsValue;
  loading : bool;
  error : string
}.

Definition initialState : State :=
  {| files := []; query := ""; response := JStr ""; loading := false; error := "" |}.

Definition setFiles (fs : list IngestedFile.t) (s : State) : State :=
  {| files := fs; query := query s; response := response s;
     loading := loading s; error := error s |}.
Definition setQuery (q : string) (s : State) : State :=
  {| files := files s; query := q; response := response s;
     loading := loading s; error := error s |}.
Definition setResponse (r : JsValue) (s : State) : State :=
  {| files := files s; query := query s; response := r;
     loading := loading s; error := error s |}.
Definition setLoading (b : bool) (s : State) : State :=
  {| files := files s; query := query s; response := response s;
     loading := b; error := error s |}.
Definition setError (e : string) (s : State) : State :=
  {| files := files s; query := query s; response := response s;
     loading := loading s; error := e |}.

(** [handleFileUpload]: [selection] is [e.target.files] ([None] when it is
    null).  A promise of [processFile] that rejects or stays pending leaves
    the state as it is. *)
Definition handleFileUpload
    (getDocument : list Byte.byte -> outcome PDFDocumentProxy)
    (read : outcome (list Byte.byte)) (now : Z)
    (selection : option (list File.t)) (s : State) : State :=
  match selection with
  | None | Some [] => s
  | Some (file :: _) =>
      match processFile getDocument read now file with
      | Some (Fulfilled processed) => setFiles [processed] s
      | Some (Rejected _) | None => s
      end
  end.

Definition removeFile (id : Z) (s : State) : State :=
  setFiles (filter (fun f => IngestedFile.id f <> id) (files s)) s.

(** ** Prompt composition *)

(** [x.toString()] on a content. *)
Definition contentToString (c : Content) : string :=
  match c with
  | Text s => s
  | ArrayBuffer _ => "[object ArrayBuffer]"
  end.

(** [${f.content?.toString().slice(0, 1000)}]: an absent content
    short-circuits to undefined, which the template prints. *)
Definition contentSegment (c : option Content) : string :=
  match c with
  | Some c => slice (contentToString c) 0 1000
  | None => "undefined"
  end.

Definition fileBlock (f : IngestedFile.t) : string :=
  "File: " +:+ IngestedFile.name f +:+ LF +:+ "Content: "
  +:+ contentSegment (IngestedFile.content f) +:+ "...".

Definition buildContext (fs : list IngestedFile.t) : string :=
  join (LF +:+ LF) (map fileBlock fs).

(** The template of the request's [prompt]. *)
Definition composePrompt (fs : list IngestedFile.t) (question : string) : string :=
  "Context:" +:+ LF +:+ buildContext fs +:+ LF +:+ LF +:+ "Query:" +:+ LF +:+ question.

(** ** Query dispatch *)

Definition BACKEND_URL : string := "http://localhost:5000/api/query".

(** The argument of [fetch]; [body] is the object handed to
    [JSON.stringify]. *)
Record Request := {
  url : string;
  method : string;
  headers : list (string * string);
  body : JsValue
}.

(** What is consumed of a [Response]: [json] is how [res.json()] settles.
    [ok] and [status] are there to be read; the source reads neither. *)
Record Response := {
  ok : bool;
  status : nat;
  json : outcome JsValue
}.

Definition queryRequest (s : State) : Request :=
  {| url := BACKEND_URL;
     method := "POST";
     headers := [("Content-Type", "application/json")];
     body := JObj {[ "prompt" := JStr (composePrompt (files s) (query s)) ]} |}.

(** [handleQuery]: the state after the handler has run to its end, and the
    requests it has sent, in order. *)
Definition handleQuery (nullMessage : string) (fetch : Request -> outcome Response)
    (s : State) : State * list Request :=
  if isEmpty (trim (query s)) then (setError "Please enter a question" s, [])
  else if (length (files s) =? 0)%nat then (setError "Please upload a file" s, [])
  else
    let s1 := setLoading true (setError "" s) in
    let req := queryRequest s in
    let tried :=
      await res <- fetch req;
      await data <- json res;
      await answer <- answerOf nullMessage data;
      Fulfilled (setResponse (orNoResponse answer) s1) in
    let s2 :=
      match tried with
      | Fulfilled s' => s'
      | Rejected message => setError ("Backend error: " +:+ message) s1
      end in
    (setLoading false s2, [req]).

(** ** Runs of the component *)

Inductive Event :=
  | FileChosen (getDocument : list Byte.byte -> outcome PDFDocumentProxy)
      (read : outcome (list Byte.byte)) (now : Z) (selection : option (list File.t))
  | FileRemoved (id : Z)
  | QueryTyped (q : string)
  | QuerySubmitted (nullMessage : string) (fetch : Request -> outcome Response).

Definition step (s : State) (e : Event) : State :=
  match e with
  | FileChosen getDocument read now selection =>
      handleFileUpload getDocument read now selection s
  | FileRemoved id => removeFile id s
  | QueryTyped q => setQuery q s
  | QuerySubmitted nullMessage fetch => fst (handleQuery nullMessage fetch s)
  end.

Definition run (events : list Event) : State := fold_left step events initialState.

(** ** Notions of the specification *)

(** Every code unit of [s] is white space; the empty string included. *)
Fixpoint whitespaceOnly (s : string) : bool :=
  match s with
  | EmptyString => true
  | String c s' => isWhiteSpace c && whitespaceOnly s'
  end.

(** The first [n] characters of [s], all of [s] when it has fewer. *)
Fixpoint firstChars (n : nat) (s : string) : string :=
  match n, s with
  | S n', String c s' => String c (firstChars n' s')
  | _, _ => EmptyString
  end.


(** The segment a file contributes to the prompt, by cases on its
    content. *)
Definition segmentOf (f : IngestedFile.t) : string :=
  match IngestedFile.content f with
  | Some (Text t) => firstChars 1000 t
  | Some (ArrayBuffer _) => "[object ArrayBuffer]"
  | None => "undefined"
  end.

(** The [str]s of the text items of page number [n], when the page and its
    text content can be had. *)
Definition pageStrings (pdf : PDFDocumentProxy) (n : nat) : option (list string) :=
  match getPage pdf n with
  | Fulfilled page =>
      match getTextContent page with
      | Fulfilled content => Some (map str (items content))
      | Rejected _ => None
      end
  | Rejected _ => None
  end.

(** [pdf] has the pages [pages], numbered from 1, each given by the [str]s
    of its text items. *)
Definition hasPages (pdf : PDFDocumentProxy) (pages : list (list string)) : Prop :=
  numPages pdf = length pages /\
  forall k strs, pages !! k = Some strs -> pageStrings pdf (k + 1) = Some strs.

(** A page's text: its items joined with single spaces. *)
Definition pageText (strs : list string) : string := join " " strs.

(** Every page's text followed by a line feed, in page order. *)
Definition pagesText (pages : list (list string)) : string :=
  join "" (map (fun strs => pageText strs +:+ LF) pages).

(** The record [processFile] resolves with. *)
Definition ingested (now : Z) (file : File.t) (c : Content) : IngestedFile.t :=
  {| IngestedFile.id := now;
     IngestedFile.name := File.name file;
     IngestedFile.type := File.type file;
     IngestedFile.size := File.size file;
     IngestedFile.content := Some c;
     IngestedFile.category := getFileCategory (File.type file) (File.name file) |}.

(** The parsed body is an object with a property [answer]. *)
Definition hasAnswerField (data : JsValue) : bool :=
  match data with
  | JObj properties =>
      match properties !! "answer" with Some _ => true | None => false end
  | JNull | JBool _ | JNum _ | JStr _ | JArr _ => false
  end.

(** The state a submission leaves behind once the request has been sent:
    files and question as they were, the loading flag down again. *)
Definition settled (s : State) (r : JsValue) (e : string) : State :=
  {| files := files s; query := query s; response := r;
     loading := false; error := e |}.

(** ** What is rendered

    Of the returned markup, the parts that depend on the state: the rows of
    the file list (key and name; the list is rendered only when a file is
    held), the value of the question box, the button's [disabled] and its
    label, and the error and response panels, each rendered only when its
    value is truthy. *)
Record View := {
  fileRows : list (Z * string);
  questionBox : string;
  buttonDisabled : bool;
  buttonLabel : string;
  errorPanel : option string;
  responsePanel : option JsValue
}.

(** What React accepts as a child: strings and numbers (text), booleans
    and null (nothing), and arrays of what it accepts.  An object, which a
    parsed body cannot make a React element, is refused with an error. *)
Fixpoint validChild (v : JsValue) : bool :=
  match v with
  | JNull | JBool _ | JNum _ | JStr _ => true
  | JArr elements => forallb validChild elements
  | JObj _ => false
  end.

(** The response panel has the response as its child, so rendering throws
    ([None]: nothing stays on screen, no error boundary being there) when
    the panel is due and the response is no valid child.  A falsy response
    is itself what its place in the markup holds, text at most, and there
    is no panel. *)
Definition render (s : State) : option View :=
  if truthy (response s) && negb (validChild (response s)) then None
  else
    Some
      {| fileRows :=
           if (0 <? length (files s))%nat
           then map (fun f => (IngestedFile.id f, IngestedFile.name f)) (files s)
           else [];
         questionBox := query s;
         buttonDisabled := loading s;
         buttonLabel := if loading s then "Processing..." else "Search";
         errorPanel := if isEmpty (error s) then None else Some (error s);
         responsePanel := if truthy (response s) then Some (response s) else None |}.

(** ** Notions used in the further properties *)

(** The message with which page number [n] fails, when it does: [getPage]
    rejects, or the page's [getTextContent] does. *)
Definition pageFailure (pdf : PDFDocumentProxy) (n : nat) : option string :=
  match getPage pdf n with
  | Rejected m => Some m
  | Fulfilled page =>
      match getTextContent page with
      | Rejected m => Some m
      | Fulfilled _ => None
      end
  end.

(** A record as [processFile] builds them: the category is inferred from
    the record's own type and name, and the content is there, extracted
    text for the PDF type and the buffer read for every other type. *)
Definition wellIngested (f : IngestedFile.t) : Prop :=
  IngestedFile.category f =
    getFileCategory (IngestedFile.type f) (IngestedFile.name f) /\
  ((IngestedFile.type f = "application/pdf" /\
    exists t, IngestedFile.content f = Some (Text t)) \/
   (IngestedFile.type f <> "application/pdf" /\
    exists bytes, IngestedFile.content f = Some (ArrayBuffer bytes))).

(** ** Sample inputs *)

Definition notesFile : IngestedFile.t :=
  {| IngestedFile.id := 1700000000000;
     IngestedFile.name := "notes.txt";
     IngestedFile.type := "text/plain";
     IngestedFile.size := 11;
     IngestedFile.content := Some (ArrayBuffer (list_byte_of_string "hello world"));
     IngestedFile.category := text |}.

Definition askingState : State :=
  setQuery "what does the file say?" (setFiles [notesFile] initialState).

Definition respond (isOk : bool) (code : nat) (data : JsValue) (_ : Request)
    : outcome Response :=
  Fulfilled {| ok := isOk; status := code; json := Fulfilled data |}.

(** The wording of V8 for reading [answer] of null. *)
Definition nullMessageV8 : string := "Cannot read properties of null (reading 'answer')".

Definition pageOf (strs : list string) : outcome PDFPageProxy :=
  Fulfilled {| getTextContent := Fulfilled {| items := map Build_TextItem strs |} |}.

Definition onePagePdf : PDFDocumentProxy :=
  {| numPages := 1; getPage := fun _ => pageOf ["a"] |}.

Definition twoPagePdf : PDFDocumentProxy :=
  {| numPages := 2;
     getPage := fun n => if (n =? 1)%nat then pageOf ["Hello"; "world"] else pageOf ["Bye"] |}.

Definition reportPdf : File.t :=
  {| File.name := "report.pdf"; File.type := "application/pdf"; File.size := 4 |}.

(** A document of three pages whose second page has no text content to
    give. *)
Definition brokenPdf : PDFDocumentProxy :=
  {| numPages := 3;
     getPage := fun n =>
       if (n =? 2)%nat
       then Fulfilled {| getTextContent := Rejected "Invalid page" |}
       else pageOf ["Intro"] |}.

Fixpoint repeatString (n : nat) (s : string) : string :=
  match n with
  | O => EmptyString
  | S n' => s +:+ repeatString n' s
  end.

(** A text of exactly 1000 characters. *)
Definition thousandChars : string := repeatString 100 "0123456789".

Definition textFile (name t : string) : IngestedFile.t :=
  {| IngestedFile.id := 1700000000000;
     IngestedFile.name := name;
     IngestedFile.type := "application/pdf";
     IngestedFile.size := 4;
     IngestedFile.content := Some (Text t);
     IngestedFile.category := text |}.

Definition notesTxt : File.t :=
  {| File.name := "notes.txt"; File.type := "text/plain"; File.size := 11 |}.

(** Discharges the side conditions of a statement about a sample run. *)
Ltac on_sample := first [reflexivity | discriminate | by left | by right].

(** * Properties *)

(** ** Strings *)

Lemma length_foldCase (s : string) : String.length (foldCase s) = String.length s.
Proof. induction s as [|c s IH]; simpl; congruence. Qed.

Lemma string_app_inj (t t' r r' : string) :
  String.length t = String.length t' -> t +:+ r = t' +:+ r' -> t = t' /\ r = r'.
Proof.
  revert t'. induction t as [|c t IH]; intros [|c' t'] Hlen Heq;
    simpl in *; try discriminate; [done |].
  injection Heq as -> Heq. injection Hlen as Hlen.
  destruct (IH _ Hlen Heq) as [-> ->]. done.
Qed.

Lemma string_app_assoc (a b c : string) : (a +:+ b) +:+ c = a +:+ (b +:+ c).
Proof. induction a as [|x a IH]; simpl; congruence. Qed.

Lemma string_app_empty_r (a : string) : a +:+ "" = a.
Proof. induction a as [|x a IH]; simpl; congruence. Qed.

Lemma foldCase_app (a b : string) : foldCase (a +:+ b) = foldCase a +:+ foldCase b.
Proof. induction a as [|x a IH]; simpl; congruence. Qed.

(** ** The regular expressions *)

Lemma matchLit_spec (w s rest : string) :
  matchLit w s = Some rest <->
  exists t, s = t +:+ rest /\ foldCase t = foldCase w.
Proof.
  revert s. induction w as [|c w IH]; intros s; simpl.
  - split.
    + intros [= ->]. by exists "".
    + intros (t & -> & Ht). destruct t; [done | discriminate Ht].
  - destruct s as [|d s].
    + split; [done |]. intros ([|? ?] & Hs & Ht); simpl in *; discriminate.
    + destruct (Ascii.eqb_spec (canonicalize c) (canonicalize d)) as [Heq | Hne].
      * rewrite IH. split.
        -- intros (t & -> & Ht). exists (String d t). simpl. by rewrite Ht, Heq.
        -- intros ([|d' t] & Hs & Ht); simpl in *; [discriminate |].
           injection Hs as -> ->. injection Ht as _ Ht. by exists t.
      * split; [done |].
        intros ([|d' t] & Hs & Ht); simpl in *; [discriminate |].
        injection Hs as -> ->. injection Ht as Hc _. by destruct Hne.
Qed.

Lemma matchK_Lit (w s : string) (k : string -> bool) :
  matchK (Lit w) s k = true <->
  exists t rest, s = t +:+ rest /\ foldCase t = foldCase w /\ k rest = true.
Proof.
  simpl. destruct (matchLit w s) as [rest|] eqn:Hm.
  - apply matchLit_spec in Hm as (t & -> & Ht). split.
    + intros Hk. by exists t, rest.
    + intros (t' & rest' & Hs & Ht' & Hk).
      assert (String.length t' = String.length t) as Hlen.
      { rewrite <- (length_foldCase t), <- (length_foldCase t'). congruence. }
      symmetry in Hs. destruct (string_app_inj _ _ _ _ Hlen Hs) as [_ ->]. done.
  - split; [done |]. intros (t & rest & -> & Ht & _).
    assert (matchLit w (t +:+ rest) = Some rest) as Hs by (apply matchLit_spec; eauto).
    congruence.
Qed.

Lemma matchK_alternatives (w : string) (ws : list string) (s : string) (k : string -> bool) :
  matchK (alternatives w ws) s k = true <->
  exists e, e ∈ w :: ws /\ matchK (Lit e) s k = true.
Proof.
  revert w. induction ws as [|w' ws IH]; intros w.
  - split.
    + intros H. exists w. split; [left | done].
    + intros (e & He & H). apply list_elem_of_singleton in He as ->. done.
  - change (alternatives w (w' :: ws)) with (Alt (Lit w) (alternatives w' ws)).
    change (matchK (Alt (Lit w) (alternatives w' ws)) s k)
      with (matchK (Lit w) s k || matchK (alternatives w' ws) s k).
    rewrite orb_true_iff, IH. split.
    + intros [H | (e & He & H)].
      * exists w. split; [left | done].
      * exists e. split; [by right | done].
    + intros (e & He & H). apply elem_of_cons in He as [-> | He]; [by left |].
      right. by exists e.
Qed.

(** The pattern [/\.(w|ws...)$/i] matches at the very start of [s] exactly
    when [s] is, ignoring case, a dot followed by one of the alternatives. *)
Lemma matchK_extensionPattern (w : string) (ws : list string) (s : string) :
  matchK (extensionPattern w ws) s (fun _ => true) = true <->
  exists e, e ∈ w :: ws /\ foldCase s = foldCase ("." +:+ e).
Proof.
  unfold extensionPattern.
  change (matchK (Seq (Lit ".") (Seq (alternatives w ws) EndOfInput)) s (fun _ => true))
    with (matchK (Lit ".") s (fun r1 =>
            matchK (alternatives w ws) r1 (fun r2 =>
              matchK EndOfInput r2 (fun _ => true)))).
  rewrite matchK_Lit. split.
  - intros (t & r1 & -> & Ht & H).
    apply matchK_alternatives in H as (e & He & H).
    apply matchK_Lit in H as (t' & r2 & -> & Ht' & H).
    destruct r2; [| discriminate H].
    exists e. split; [done |].
    rewrite string_app_empty_r, !foldCase_app. congruence.
  - intros (e & He & Hs).
    destruct s as [|d s]; [discriminate Hs |].
    simpl in Hs. injection Hs as Hd Hs.
    exists (String d ""), s. split; [done |]. split; [simpl; congruence |].
    apply matchK_alternatives. exists e. split; [done |].
    apply matchK_Lit. exists s, "". by rewrite string_app_empty_r.
Qed.

Lemma regexMatch_spec (r : regex) (s : string) :
  regexMatch r s = true <->
  exists stem tail, s = stem +:+ tail /\ matchK r tail (fun _ => true) = true.
Proof.
  induction s as [|c s IH]; simpl; rewrite orb_true_iff.
  - split.
    + intros [H | H]; [| discriminate]. by exists "", "".
    + intros (stem & tail & Hs & H). left.
      destruct stem; [| discriminate Hs]. simpl in Hs. by subst tail.
  - rewrite IH. split.
    + intros [H | (stem & tail & -> & H)].
      * by exists "", (String c s).
      * by exists (String c stem), tail.
    + intros ([|c' stem] & tail & Hs & H); simpl in Hs.
      * left. by subst tail.
      * right. injection Hs as -> ->. by exists stem, tail.
Qed.

(** [name.match(/\.(w|ws...)$/i)] is truthy exactly when [name] ends,
    ignoring case, in a dot followed by one of the alternatives. *)
Lemma regexMatch_extensionPattern (w : string) (ws : list string) (name : string) :
  regexMatch (extensionPattern w ws) name = true <->
  exists e, e ∈ w :: ws /\ endsWithIgnoreCase name ("." +:+ e).
Proof.
  rewrite regexMatch_spec. unfold endsWithIgnoreCase. split.
  - intros (stem & tail & -> & H).
    apply matchK_extensionPattern in H as (e & He & H).
    exists e. split; [done |]. by exists stem, tail.
  - intros (e & He & stem & tail & -> & H).
    exists stem, tail. split; [done |]. apply matchK_extensionPattern. by exists e.
Qed.

(** ** Category inference *)

Lemma test_indicates (prefix w : string) (ws : list string) (type name : string) :
  startsWith type prefix || regexMatch (extensionPattern w ws) name = true <->
  indicates prefix (w :: ws) type name.
Proof.
  unfold indicates. by rewrite orb_true_iff, regexMatch_extensionPattern.
Qed.

Lemma test_not_indicates (prefix w : string) (ws : list string) (type name : string) :
  startsWith type prefix || regexMatch (extensionPattern w ws) name = false <->
  ~ indicates prefix (w :: ws) type name.
Proof.
  rewrite <- test_indicates. by destruct (_ || _).
Qed.

(** C1 (as amended).  [getFileCategory] tries the four categories in the
    order text, image, audio, video.  The test of a category succeeds when
    the declared type starts with the category's prefix or the file name
    ends, ignoring case, in a dot and one of the category's extensions; the
    first test that succeeds gives the category, and [other] is the
    category exactly when all four fail.  So the type prefix and the
    suffixes of image, audio and video count only when no earlier
    category's test succeeded. *)
Theorem getFileCategory_first_match (type name : string) :
  (getFileCategory type name = text <-> indicatesText type name) /\
  (getFileCategory type name = image <->
     ~ indicatesText type name /\ indicatesImage type name) /\
  (getFileCategory type name = audio <->
     ~ indicatesText type name /\ ~ indicatesImage type name /\
     indicatesAudio type name) /\
  (getFileCategory type name = video <->
     ~ indicatesText type name /\ ~ indicatesImage type name /\
     ~ indicatesAudio type name /\ indicatesVideo type name) /\
  (getFileCategory type name = other <->
     ~ indicatesText type name /\ ~ indicatesImage type name /\
     ~ indicatesAudio type name /\ ~ indicatesVideo type name).
Proof.
  unfold getFileCategory, indicatesText, indicatesImage, indicatesAudio,
    indicatesVideo, textPattern, imagePattern, audioPattern, videoPattern,
    textExts, imageExts, audioExts, videoExts.
  destruct (startsWith type "text/" || _) eqn:Ht;
    [apply test_indicates in Ht | apply test_not_indicates in Ht].
  { repeat split; (discriminate || tauto). }
  destruct (startsWith type "image/" || _) eqn:Hi;
    [apply test_indicates in Hi | apply test_not_indicates in Hi].
  { repeat split; (discriminate || tauto). }
  destruct (startsWith type "audio/" || _) eqn:Ha;
    [apply test_indicates in Ha | apply test_not_indicates in Ha].
  { repeat split; (discriminate || tauto). }
  destruct (startsWith type "video/" || _) eqn:Hv;
    [apply test_indicates in Hv | apply test_not_indicates in Hv].
  { repeat split; (discriminate || tauto). }
  repeat split; (discriminate || tauto).
Qed.

(** C1 (as stated) fails: the declared type [image/png] starts with
    [image/], yet the suffix [.txt] of the file name is looked at before it
    and makes the category [text]. *)
Lemma getFileCategory_suffix_before_type :
  startsWith "image/png" "image/" = true /\
  getFileCategory "image/png" "notes.txt" = text /\
  getFileCategory "image/png" "notes.txt" <> image.
Proof.
  split; [reflexivity |]. split; [reflexivity |].
  vm_compute. discriminate.
Qed.

(** Each category is met, by type or by suffix, case ignored; a suffix
    must be at the very end and needs its dot. *)
Example getFileCategory_samples :
  getFileCategory "text/plain" "README" = text /\
  getFileCategory "application/pdf" "Report.PDF" = text /\
  getFileCategory "image/png" "scan" = image /\
  getFileCategory "" "photo.JpEg" = image /\
  getFileCategory "" "song.mp3" = audio /\
  getFileCategory "video/mp4" "clip" = video /\
  getFileCategory "" "clip.mov" = video /\
  getFileCategory "application/zip" "notes.txt.zip" = other /\
  getFileCategory "" "md" = other.
Proof. repeat split. Qed.

(** ** PDF text extraction *)

Lemma join_empty_cons (x : string) (xs : list string) :
  join "" (x :: xs) = x +:+ join "" xs.
Proof.
  unfold join. destruct xs as [|y ys]; simpl.
  - by rewrite string_app_empty_r.
  - done.
Qed.

Lemma pagesText_cons (strs : list string) (pages : list (list string)) :
  pagesText (strs :: pages) = (pageText strs +:+ LF) +:+ pagesText pages.
Proof. unfold pagesText. simpl map. apply join_empty_cons. Qed.

(** The loop, started at counter [i] with the pages [rest] still to come,
    asks for the pages [i + 1], [i + 2], ... once each and appends their
    lines in that order. *)
Lemma extractFrom_pages (pdf : PDFDocumentProxy) (rest : list (list string)) :
  forall (i : nat) (txt : string) (asked : list nat),
    (forall k strs, rest !! k = Some strs -> pageStrings pdf (i + k + 1) = Some strs) ->
    extractFrom pdf (length rest) i txt asked =
      ((asked ++ seq (i + 1) (length rest))%list, Fulfilled (txt +:+ pagesText rest)).
Proof.
  induction rest as [|strs rest IH]; intros i txt asked Hpages.
  - simpl. by rewrite app_nil_r, string_app_empty_r.
  - pose proof (Hpages 0 strs eq_refl) as Hfirst.
    rewrite Nat.add_0_r in Hfirst. unfold pageStrings in Hfirst.
    simpl extractFrom.
    destruct (getPage pdf (i + 1)) as [page|]; [| discriminate].
    destruct (getTextContent page) as [content|]; [| discriminate].
    injection Hfirst as Hstrs.
    rewrite IH.
    + rewrite Hstrs, pagesText_cons, string_app_assoc.
      change (length (strs :: rest)) with (S (length rest)).
      rewrite <- cons_seq, <- app_assoc, !Nat.add_1_r. done.
    + intros k strs' Hk. replace (i + 1 + k + 1) with (i + S k + 1) by lia.
      by apply Hpages.
Qed.

(** C2 (as amended).  For a file whose declared type is exactly
    [application/pdf], whose bytes are read and parse to a document with
    the pages [pages]: the pages are asked for from 1 to the last, each
    once and in order, and the ingested content is, page after page, the
    page's text items joined with single spaces and followed by a line
    feed (the last page's line feed included). *)
Theorem processFile_pdf_content
    (getDocument : list Byte.byte -> outcome PDFDocumentProxy)
    (buffer : list Byte.byte) (now : Z) (file : File.t)
    (pdf : PDFDocumentProxy) (pages : list (list string)) :
  File.type file = "application/pdf" ->
  getDocument buffer = Fulfilled pdf ->
  hasPages pdf pages ->
  extractTextFromPdfTraced getDocument buffer =
    (seq 1 (length pages), Fulfilled (pagesText pages)) /\
  processFile getDocument (Fulfilled buffer) now file =
    Some (Fulfilled (ingested now file (Text (pagesText pages)))).
Proof.
  intros Htype Hdoc [Hnum Hpages].
  assert (extractTextFromPdfTraced getDocument buffer =
            (seq 1 (length pages), Fulfilled (pagesText pages))) as Hrun.
  { unfold extractTextFromPdfTraced. rewrite Hdoc, Hnum.
    by rewrite (extractFrom_pages pdf pages 0 "" []). }
  split; [done |].
  unfold processFile, extractTextFromPdf. rewrite Hrun.
  destruct (String.eqb_spec (File.type file) "application/pdf") as [_ | Hne];
    [reflexivity | by destruct Hne].
Qed.

Lemma processFile_pdf_content_witness :
  extractTextFromPdfTraced (fun _ => Fulfilled twoPagePdf) [] =
    ([1; 2], Fulfilled ("Hello world" +:+ LF +:+ "Bye" +:+ LF)) /\
  processFile (fun _ => Fulfilled twoPagePdf) (Fulfilled []) 1700000000000 reportPdf =
    Some (Fulfilled (ingested 1700000000000 reportPdf
                       (Text ("Hello world" +:+ LF +:+ "Bye" +:+ LF)))).
Proof.
  apply (processFile_pdf_content (fun _ => Fulfilled twoPagePdf) [] 1700000000000
           reportPdf twoPagePdf [["Hello"; "world"]; ["Bye"]]).
  - reflexivity.
  - reflexivity.
  - split; [reflexivity |].
    intros [|[|k]] strs Hk; simpl in Hk; [| | discriminate];
      injection Hk as <-; reflexivity.
Defined.

(** C2 (as stated) fails: the pages are not merely joined with line feeds.
    A document of one page with the single item [a] is ingested as [a]
    followed by a line feed, where joining the pages gives [a]. *)
Lemma processFile_pdf_trailing_newline :
  processFile (fun _ => Fulfilled onePagePdf) (Fulfilled []) 1700000000000 reportPdf =
    Some (Fulfilled (ingested 1700000000000 reportPdf (Text ("a" +:+ LF)))) /\
  join LF (map pageText [["a"]]) = "a" /\
  "a" +:+ LF <> join LF (map pageText [["a"]]).
Proof.
  split; [reflexivity |]. split; [reflexivity |].
  vm_compute. discriminate.
Qed.

(** ** Prompt composition *)

Lemma substring_firstChars (s : string) (n : nat) :
  substring 0 (Nat.min n (String.length s)) s = firstChars n s.
Proof.
  revert n. induction s as [|c s IH]; intros [|n]; simpl; try done.
  by rewrite IH.
Qed.

(** [s.slice(0, n)] is the first [n] characters of [s]. *)
Lemma slice_firstChars (s : string) (n : nat) : slice s 0 n = firstChars n s.
Proof.
  unfold slice. rewrite Nat.min_0_l, Nat.sub_0_r. apply substring_firstChars.
Qed.


Lemma firstChars_short (n : nat) (s : string) :
  String.length s <= n -> firstChars n s = s.
Proof.
  revert s. induction n as [|n IH]; intros [|c s] Hlen; simpl in *; try done.
  - lia.
  - rewrite IH; [done | lia].
Qed.


(** What the code puts after [Content: ], told by cases on the content. *)
Lemma segmentOf_contentSegment (f : IngestedFile.t) :
  contentSegment (IngestedFile.content f) = segmentOf f.
Proof.
  unfold segmentOf, contentSegment. destruct (IngestedFile.content f) as [[t | bytes]|].
  - apply slice_firstChars.
  - reflexivity.
  - reflexivity.
Qed.



(** A file that is not a PDF is held as the buffer read, and a buffer's
    [toString()] does not decode it. *)
Example composePrompt_sample :
  composePrompt [notesFile] "what does the file say?" =
    "Context:" +:+ LF +:+ "File: notes.txt" +:+ LF
    +:+ "Content: [object ArrayBuffer]..." +:+ LF +:+ LF
    +:+ "Query:" +:+ LF +:+ "what does the file say?".
Proof. reflexivity. Qed.

(** ** Query dispatch *)

Lemma whitespaceOnly_trimStart (s : string) :
  whitespaceOnly (trimStart s) = whitespaceOnly s.
Proof.
  induction s as [|c s IH]; simpl; [done |].
  destruct (isWhiteSpace c) eqn:Hc; simpl; [done |]. by rewrite Hc.
Qed.

Lemma isEmpty_trimEnd (s : string) : isEmpty (trimEnd s) = whitespaceOnly s.
Proof.
  induction s as [|c s IH]; simpl; [done |].
  destruct (trimEnd s) as [|d t]; simpl in *; rewrite <- IH.
  - destruct (isWhiteSpace c); done.
  - by rewrite andb_false_r.
Qed.

(** [!query.trim()] holds exactly of the questions that are empty or made
    of white space only. *)
Lemma isEmpty_trim (s : string) : isEmpty (trim s) = whitespaceOnly s.
Proof. unfold trim. by rewrite isEmpty_trimEnd, whitespaceOnly_trimStart. Qed.

Lemma handleQuery_blank (nullMessage : string) (fetch : Request -> outcome Response)
    (s : State) :
  whitespaceOnly (query s) = true ->
  handleQuery nullMessage fetch s = (setError "Please enter a question" s, []).
Proof. intros Hq. unfold handleQuery. by rewrite isEmpty_trim, Hq. Qed.

Lemma handleQuery_no_files (nullMessage : string) (fetch : Request -> outcome Response)
    (s : State) :
  whitespaceOnly (query s) = false -> files s = [] ->
  handleQuery nullMessage fetch s = (setError "Please upload a file" s, []).
Proof. intros Hq Hf. unfold handleQuery. by rewrite isEmpty_trim, Hq, Hf. Qed.

(** *** Submissions that are turned away *)






(** *** Submissions that are sent *)

Section Dispatch.

Context (nullMessage : string) (fetch : Request -> outcome Response) (s : State).
Hypothesis question_given : whitespaceOnly (query s) = false.
Hypothesis file_held : files s <> [].

(** With a question and a file, exactly one request is sent, and the state
    is settled by what comes back. *)
Lemma handleQuery_dispatch :
  handleQuery nullMessage fetch s =
    (match
       (await res <- fetch (queryRequest s);
        await data <- json res;
        await answer <- answerOf nullMessage data;
        Fulfilled (orNoResponse answer))
     with
     | Fulfilled r => settled s r ""
     | Rejected message => settled s (response s) ("Backend error: " +:+ message)
     end, [queryRequest s]).
Proof.
  unfold handleQuery. rewrite isEmpty_trim, question_given.
  destruct (files s) as [|f fs] eqn:Hfiles; [done |].
  change (length (f :: fs) =? 0)%nat with false. cbv iota zeta.
  f_equal. clear Hfiles file_held.
  destruct (fetch (queryRequest s)) as [res|m]; [| reflexivity].
  cbn [bind].
  destruct (json res) as [data|m]; [| reflexivity].
  cbn [bind].
  destruct (answerOf nullMessage data) as [answer|m]; reflexivity.
Qed.

(** Once the body has parsed, reading [answer] decides. *)
Lemma handleQuery_parsed (res : Response) (data : JsValue) :
  fetch (queryRequest s) = Fulfilled res -> json res = Fulfilled data ->
  handleQuery nullMessage fetch s =
    (match answerOf nullMessage data with
     | Fulfilled answer => settled s (orNoResponse answer) ""
     | Rejected message => settled s (response s) ("Backend error: " +:+ message)
     end, [queryRequest s]).
Proof.
  intros Hres Hjson. rewrite handleQuery_dispatch, Hres. cbn [bind].
  rewrite Hjson. cbn [bind]. by destruct (answerOf nullMessage data).
Qed.

(** C5.  When the request is rejected, or the response's body fails to
    parse, with message [m]: the error shown is [Backend error: ] followed
    by [m], the response held before is still held, the one request sent is
    not sent again, and the loading flag is down. *)
Theorem handleQuery_dispatch_failure (m : string) :
  (fetch (queryRequest s) = Rejected m \/
   exists res, fetch (queryRequest s) = Fulfilled res /\ json res = Rejected m) ->
  handleQuery nullMessage fetch s =
    ({| files := files s; query := query s; response := response s;
        loading := false; error := "Backend error: " +:+ m |},
     [queryRequest s]).
Proof.
  intros Hfail. rewrite handleQuery_dispatch.
  destruct Hfail as [-> | (res & -> & Hjson)]; [done |].
  cbn [bind]. by rewrite Hjson.
Qed.

(** X16.  Reading [answer] of a body that parsed to null fails as well:
    the error shown is [Backend error: ] followed by the engine's message,
    and the response held before is kept. *)
Lemma handleQuery_null_body (res : Response) :
  fetch (queryRequest s) = Fulfilled res -> json res = Fulfilled JNull ->
  handleQuery nullMessage fetch s =
    (settled s (response s) ("Backend error: " +:+ nullMessage), [queryRequest s]).
Proof. intros Hres Hjson. by rewrite (handleQuery_parsed res JNull). Qed.

(** C6 (as amended).  A response with a non-OK status is not told apart
    from an OK one with the same body: the status is never looked at.  A
    body that parses to a value other than null gives a normal response
    and no error: the [answer] of an object when it is there and truthy,
    [No response found] otherwise.  A [Backend error: ] is shown only when
    the body fails to parse (with the parser's message) or parses to null
    (with the engine's message for reading [answer] of null); the response
    held before is then kept. *)
Theorem handleQuery_non_ok_response (res : Response) :
  fetch (queryRequest s) = Fulfilled res -> ok res = false ->
  handleQuery nullMessage fetch s =
    (match json res with
     | Rejected m =>
         {| files := files s; query := query s; response := response s;
            loading := false; error := "Backend error: " +:+ m |}
     | Fulfilled JNull =>
         {| files := files s; query := query s; response := response s;
            loading := false; error := "Backend error: " +:+ nullMessage |}
     | Fulfilled (JObj properties) =>
         {| files := files s; query := query s;
            response :=
              match properties !! "answer" with
              | Some v => if truthy v then v else JStr "No response found"
              | None => JStr "No response found"
              end;
            loading := false; error := "" |}
     | Fulfilled (JBool _) | Fulfilled (JNum _) | Fulfilled (JStr _)
     | Fulfilled (JArr _) =>
         {| files := files s; query := query s;
            response := JStr "No response found";
            loading := false; error := "" |}
     end, [queryRequest s]) /\
  handleQuery nullMessage fetch s =
    handleQuery nullMessage
      (fun _ => Fulfilled {| ok := true; status := 200; json := json res |}) s.
Proof.
  intros Hres _. split.
  - rewrite handleQuery_dispatch, Hres. cbn [bind].
    destruct (json res) as [[| b | x | t | elements | properties]|m]; try reflexivity.
  - unfold handleQuery. rewrite Hres. reflexivity.
Qed.

(** C7 (as amended).  When the body parses to data that has no [answer]
    field and is not null (an object without that property, an array, a
    string, a number or a boolean), the response shown is
    [No response found] and no error is set.  When it parses to null,
    which has no [answer] field either, the error is [Backend error: ]
    followed by the engine's message, and the response held before is
    kept. *)
Theorem handleQuery_no_answer_field (res : Response) (data : JsValue) :
  fetch (queryRequest s) = Fulfilled res -> json res = Fulfilled data ->
  hasAnswerField data = false ->
  handleQuery nullMessage fetch s =
    (match data with
     | JNull =>
         {| files := files s; query := query s; response := response s;
            loading := false; error := "Backend error: " +:+ nullMessage |}
     | JBool _ | JNum _ | JStr _ | JArr _ | JObj _ =>
         {| files := files s; query := query s;
            response := JStr "No response found";
            loading := false; error := "" |}
     end, [queryRequest s]).
Proof.
  intros Hres Hjson Hfield. rewrite (handleQuery_parsed res data) by done.
  destruct data as [| b | x | t | elements | properties]; try done.
  simpl in *. destruct (properties !! "answer"); [discriminate | done].
Qed.

(** C10.  When the body is an object whose [answer] is there but falsy
    (null, false, a zero or not-a-number, the empty string), the response
    shown is [No response found], not the field's value. *)
Theorem handleQuery_falsy_answer
    (res : Response) (properties : gmap string JsValue) (v : JsValue) :
  fetch (queryRequest s) = Fulfilled res ->
  json res = Fulfilled (JObj properties) ->
  properties !! "answer" = Some v -> truthy v = false ->
  handleQuery nullMessage fetch s =
    ({| files := files s; query := query s; response := JStr "No response found";
        loading := false; error := "" |},
     [queryRequest s]).
Proof.
  intros Hres Hjson Hv Hfalsy.
  rewrite (handleQuery_parsed res (JObj properties)) by done.
  cbn [answerOf]. rewrite Hv. cbn [orNoResponse]. by rewrite Hfalsy.
Qed.

End Dispatch.

(** The falsy values a parsed body can hold. *)
Lemma truthy_false (v : JsValue) :
  truthy v = false <->
  v = JNull \/ v = JBool false \/ v = JStr "" \/
  (exists sign, v = JNum (S754_zero sign)) \/ v = JNum S754_nan.
Proof.
  split.
  - destruct v as [| [] | [] | [] | |]; simpl; intros H; try discriminate H; eauto 6.
  - intros [-> | [-> | [-> | [[sign ->] | ->]]]]; reflexivity.
Qed.

(** What a response does to the state depends on its body alone: [ok] and
    [status] are never read. *)
Lemma handleQuery_ignores_status (nullMessage : string) (s : State)
    (res : Response) (isOk : bool) (code : nat) :
  handleQuery nullMessage (fun _ => Fulfilled res) s =
  handleQuery nullMessage
    (fun _ => Fulfilled {| ok := isOk; status := code; json := json res |}) s.
Proof. reflexivity. Qed.

Lemma handleQuery_dispatch_failure_witness :
  handleQuery nullMessageV8 (fun _ => Rejected "timeout") askingState =
    ({| files := [notesFile]; query := "what does the file say?";
        response := JStr ""; loading := false;
        error := "Backend error: timeout" |},
     [queryRequest askingState]).
Proof.
  refine (handleQuery_dispatch_failure nullMessageV8 (fun _ => Rejected "timeout")
            askingState _ _ "timeout" _); on_sample.
Defined.

Lemma handleQuery_non_ok_response_witness :
  handleQuery nullMessageV8
    (respond false 500 (JObj {[ "answer" := JStr "Internal Server Error" ]}))
    askingState =
    ({| files := [notesFile]; query := "what does the file say?";
        response := JStr "Internal Server Error"; loading := false; error := "" |},
     [queryRequest askingState]) /\
  handleQuery nullMessageV8
    (respond false 500 (JObj {[ "answer" := JStr "Internal Server Error" ]}))
    askingState =
  handleQuery nullMessageV8
    (fun _ => Fulfilled
       {| ok := true; status := 200;
          json := Fulfilled (JObj {[ "answer" := JStr "Internal Server Error" ]}) |})
    askingState.
Proof.
  refine (handleQuery_non_ok_response nullMessageV8
            (respond false 500 (JObj {[ "answer" := JStr "Internal Server Error" ]}))
            askingState _ _
            {| ok := false; status := 500;
               json := Fulfilled (JObj {[ "answer" := JStr "Internal Server Error" ]}) |}
            _ _); on_sample.
Defined.

(** A response with status 500 and the body [null]: the body parses, and
    the error is the one for reading [answer] of null. *)
Example handleQuery_non_ok_null_body :
  handleQuery nullMessageV8 (respond false 500 JNull) askingState =
    ({| files := [notesFile]; query := "what does the file say?";
        response := JStr ""; loading := false;
        error := "Backend error: Cannot read properties of null (reading 'answer')" |},
     [queryRequest askingState]).
Proof. reflexivity. Qed.

(** C6 (as stated) fails: a response with status 500 whose body carries an
    [answer] is shown as a normal answer, with no error at all. *)
Lemma handleQuery_non_ok_not_an_error :
  ok {| ok := false; status := 500;
        json := Fulfilled (JObj {[ "answer" := JStr "Internal Server Error" ]}) |} = false /\
  error (fst (handleQuery nullMessageV8
                (respond false 500 (JObj {[ "answer" := JStr "Internal Server Error" ]}))
                askingState)) = "" /\
  response (fst (handleQuery nullMessageV8
                (respond false 500 (JObj {[ "answer" := JStr "Internal Server Error" ]}))
                askingState)) = JStr "Internal Server Error" /\
  startsWith
    (error (fst (handleQuery nullMessageV8
                   (respond false 500 (JObj {[ "answer" := JStr "Internal Server Error" ]}))
                   askingState)))
    "Backend error:" = false.
Proof. repeat split. Qed.

Lemma handleQuery_no_answer_field_witness :
  handleQuery nullMessageV8 (respond true 200 (JObj {[ "result" := JStr "42" ]}))
    askingState =
    ({| files := [notesFile]; query := "what does the file say?";
        response := JStr "No response found"; loading := false; error := "" |},
     [queryRequest askingState]).
Proof.
  refine (handleQuery_no_answer_field nullMessageV8
            (respond true 200 (JObj {[ "result" := JStr "42" ]})) askingState _ _
            {| ok := true; status := 200;
               json := Fulfilled (JObj {[ "result" := JStr "42" ]}) |}
            (JObj {[ "result" := JStr "42" ]}) _ _ _); on_sample.
Defined.

(** C7 (as stated) fails: the body [null] parses and has no [answer]
    field, yet what is shown is an error, not the fallback; the response
    stays what it was. *)
Lemma handleQuery_null_body_no_fallback :
  json {| ok := true; status := 200; json := Fulfilled JNull |} = Fulfilled JNull /\
  hasAnswerField JNull = false /\
  error (fst (handleQuery nullMessageV8 (respond true 200 JNull) askingState)) =
    "Backend error: Cannot read properties of null (reading 'answer')" /\
  response (fst (handleQuery nullMessageV8 (respond true 200 JNull) askingState)) <>
    JStr "No response found".
Proof.
  split; [reflexivity |]. split; [reflexivity |]. split; [reflexivity |].
  vm_compute. discriminate.
Qed.

Lemma handleQuery_falsy_answer_witness :
  handleQuery nullMessageV8 (respond true 200 (JObj {[ "answer" := JStr "" ]}))
    askingState =
    ({| files := [notesFile]; query := "what does the file say?";
        response := JStr "No response found"; loading := false; error := "" |},
     [queryRequest askingState]).
Proof.
  refine (handleQuery_falsy_answer nullMessageV8
            (respond true 200 (JObj {[ "answer" := JStr "" ]})) askingState _ _
            {| ok := true; status := 200;
               json := Fulfilled (JObj {[ "answer" := JStr "" ]}) |}
            {[ "answer" := JStr "" ]} (JStr "") _ _ _ _); on_sample.
Defined.

(** ** The files held in state *)

Lemma handleFileUpload_files
    (getDocument : list Byte.byte -> outcome PDFDocumentProxy)
    (read : outcome (list Byte.byte)) (now : Z)
    (selection : option (list File.t)) (s : State) :
  files (handleFileUpload getDocument read now selection s) = files s \/
  exists processed,
    files (handleFileUpload getDocument read now selection s) = [processed].
Proof.
  unfold handleFileUpload.
  destruct selection as [[|file rest]|]; [by left | | by left].
  destruct (processFile getDocument read now file) as [[processed|m]|];
    [right; by exists processed | by left | by left].
Qed.

Lemma removeFile_files (id : Z) (s : State) :
  length (files (removeFile id s)) <= length (files s).
Proof. unfold removeFile. simpl. apply length_filter. Qed.

Lemma handleQuery_files (nullMessage : string)
    (fetch : Request -> outcome Response) (s : State) :
  files (fst (handleQuery nullMessage fetch s)) = files s.
Proof.
  unfold handleQuery.
  destruct (isEmpty (trim (query s))); [done |].
  destruct (length (files s) =? 0)%nat; [done |]. cbv zeta.
  destruct (fetch (queryRequest s)) as [res|m]; [| done]. cbn [bind].
  destruct (json res) as [data|m]; [| done]. cbn [bind].
  destruct (answerOf nullMessage data) as [answer|m]; done.
Qed.

Lemma step_at_most_one_file (s : State) (e : Event) :
  length (files s) <= 1 -> length (files (step s e)) <= 1.
Proof.
  intros Hs. destruct e as [getDocument read now selection | id | q | nullMessage fetch];
    cbn [step].
  - destruct (handleFileUpload_files getDocument read now selection s)
      as [-> | [processed ->]]; [done | simpl; lia].
  - pose proof (removeFile_files id s). lia.
  - done.
  - by rewrite handleQuery_files.
Qed.

Lemma fold_step_at_most_one_file (events : list Event) (s : State) :
  length (files s) <= 1 -> length (files (fold_left step events s)) <= 1.
Proof.
  revert s. induction events as [|e events IH]; intros s Hs; simpl; [done |].
  apply IH. by apply step_at_most_one_file.
Qed.

(** C8.  However the component is driven from its initial state (files
    chosen, files removed, questions typed and submitted), it holds at most
    one ingested file: the upload handler leaves the collection alone or
    replaces it by a list of the one processed file, and removal only
    filters. *)
Theorem at_most_one_file :
  length (files initialState) <= 1 /\
  (forall events, length (files (run events)) <= 1) /\
  (forall getDocument read now selection s,
     files (handleFileUpload getDocument read now selection s) = files s \/
     exists processed,
       files (handleFileUpload getDocument read now selection s) = [processed]) /\
  (forall id s, length (files (removeFile id s)) <= length (files s)).
Proof.
  split; [simpl; lia |]. split; [| split].
  - intros events. apply fold_step_at_most_one_file. simpl. lia.
  - apply handleFileUpload_files.
  - apply removeFile_files.
Qed.

(** * Further properties *)

(** ** Extraction that fails *)

(** However the pages answer, the loop asks for consecutive page numbers
    starting after its counter, never more than it has iterations left,
    and all of them when it ends with a text. *)
Lemma extractFrom_asked (pdf : PDFDocumentProxy) (todo : nat) :
  forall (i : nat) (txt : string) (asked : list nat),
  exists k,
    k <= todo /\
    fst (extractFrom pdf todo i txt asked) = (asked ++ seq (i + 1) k)%list /\
    (forall t, snd (extractFrom pdf todo i txt asked) = Fulfilled t -> k = todo).
Proof.
  induction todo as [|todo IH]; intros i txt asked.
  - exists 0. simpl. by rewrite app_nil_r.
  - simpl extractFrom.
    destruct (getPage pdf (i + 1)) as [page|m].
    + destruct (getTextContent page) as [content|m].
      * destruct (IH (i + 1)
                    (txt +:+ join " " (map str (items content)) +:+ LF)
                    (asked ++ [i + 1])%list) as (k & Hk & Hasked & Hall).
        exists (S k). split; [lia |]. split.
        -- rewrite Hasked, <- app_assoc. simpl. by rewrite !Nat.add_1_r.
        -- intros t Ht. f_equal. by apply (Hall t).
      * exists 1. split; [lia |]. split; [done |]. intros t Ht. discriminate Ht.
    + exists 1. split; [lia |]. split; [done |]. intros t Ht. discriminate Ht.
Qed.

(** X1.  Whatever pdf.js answers for the pages of a document it has
    opened, [extractTextFromPdf] asks for the pages 1, 2, ..., k in that
    order and without a gap or a repeat, for some k that is at most
    [numPages]; and k is [numPages] whenever a text is returned. *)
Theorem extractTextFromPdf_asks_in_order
    (getDocument : list Byte.byte -> outcome PDFDocumentProxy)
    (buffer : list Byte.byte) (pdf : PDFDocumentProxy) :
  getDocument buffer = Fulfilled pdf ->
  exists k,
    k <= numPages pdf /\
    fst (extractTextFromPdfTraced getDocument buffer) = seq 1 k /\
    (forall t, extractTextFromPdf getDocument buffer = Fulfilled t ->
               k = numPages pdf).
Proof.
  intros Hdoc. unfold extractTextFromPdf, extractTextFromPdfTraced. rewrite Hdoc.
  destruct (extractFrom_asked pdf (numPages pdf) 0 "" []) as (k & Hk & Hasked & Hall).
  exists k. done.
Qed.

Lemma extractTextFromPdf_asks_in_order_witness :
  exists k,
    k <= numPages brokenPdf /\
    fst (extractTextFromPdfTraced (fun _ => Fulfilled brokenPdf) []) = seq 1 k /\
    (forall t, extractTextFromPdf (fun _ => Fulfilled brokenPdf) [] = Fulfilled t ->
               k = numPages brokenPdf).
Proof.
  apply (extractTextFromPdf_asks_in_order (fun _ => Fulfilled brokenPdf) [] brokenPdf).
  reflexivity.
Defined.

(** After the pages [rest], read without trouble, a page that fails ends
    the loop at once with that page's message. *)
Lemma extractFrom_failure (pdf : PDFDocumentProxy) (rest : list (list string))
    (more : nat) (m : string) :
  forall (i : nat) (txt : string) (asked : list nat),
    (forall k strs, rest !! k = Some strs -> pageStrings pdf (i + k + 1) = Some strs) ->
    pageFailure pdf (i + length rest + 1) = Some m ->
    extractFrom pdf (length rest + S more) i txt asked =
      ((asked ++ seq (i + 1) (length rest + 1))%list, Rejected m).
Proof.
  induction rest as [|strs rest IH]; intros i txt asked Hpages Hfail.
  - simpl in *. rewrite Nat.add_0_r in Hfail. unfold pageFailure in Hfail.
    destruct (getPage pdf (i + 1)) as [page|m'].
    + destruct (getTextContent page) as [content|m']; [discriminate |].
      by injection Hfail as ->.
    + by injection Hfail as ->.
  - pose proof (Hpages 0 strs eq_refl) as Hfirst.
    rewrite Nat.add_0_r in Hfirst. unfold pageStrings in Hfirst.
    change (length (strs :: rest) + S more) with (S (length rest + S more)).
    simpl extractFrom.
    destruct (getPage pdf (i + 1)) as [page|]; [| discriminate].
    destruct (getTextContent page) as [content|]; [| discriminate].
    rewrite IH.
    + change (length (strs :: rest) + 1) with (S (length rest + 1)).
      rewrite <- cons_seq, <- app_assoc, !Nat.add_1_r. done.
    + intros k strs' Hk. replace (i + 1 + k + 1) with (i + S k + 1) by lia.
      by apply Hpages.
    + replace (i + 1 + length rest + 1) with (i + length (strs :: rest) + 1)
        by (simpl; lia).
      done.
Qed.

(** X2.  When the pages before page n are read without trouble and page n
    (one of the document's pages) fails with message [m], extraction is
    rejected with [m], and no page after n is asked for. *)
Theorem extractTextFromPdf_first_failure
    (getDocument : list Byte.byte -> outcome PDFDocumentProxy)
    (buffer : list Byte.byte) (pdf : PDFDocumentProxy)
    (pages : list (list string)) (m : string) :
  getDocument buffer = Fulfilled pdf ->
  length pages < numPages pdf ->
  (forall k strs, pages !! k = Some strs -> pageStrings pdf (k + 1) = Some strs) ->
  pageFailure pdf (length pages + 1) = Some m ->
  extractTextFromPdfTraced getDocument buffer =
    (seq 1 (length pages + 1), Rejected m).
Proof.
  intros Hdoc Hlt Hpages Hfail. unfold extractTextFromPdfTraced. rewrite Hdoc.
  replace (numPages pdf)
    with (length pages + S (numPages pdf - length pages - 1)) by lia.
  by rewrite (extractFrom_failure pdf pages _ m 0 "" []).
Qed.

Lemma extractTextFromPdf_first_failure_witness :
  extractTextFromPdfTraced (fun _ => Fulfilled brokenPdf) [] =
    ([1; 2], Rejected "Invalid page").
Proof.
  refine (extractTextFromPdf_first_failure (fun _ => Fulfilled brokenPdf) []
            brokenPdf [["Intro"]] "Invalid page" _ _ _ _).
  - reflexivity.
  - simpl. lia.
  - intros [|k] strs Hk; simpl in Hk; [| discriminate].
    injection Hk as <-. reflexivity.
  - reflexivity.
Defined.

(** X3.  When the text of a file declared as PDF cannot be extracted (the
    document does not open, or a page fails), the promise of [processFile]
    never settles, and the upload handler leaves the whole state as it
    was: the files held before stay, and no error is shown. *)
Theorem handleFileUpload_pdf_failure
    (getDocument : list Byte.byte -> outcome PDFDocumentProxy)
    (buffer : list Byte.byte) (now : Z) (file : File.t) (others : list File.t)
    (m : string) (s : State) :
  File.type file = "application/pdf" ->
  extractTextFromPdf getDocument buffer = Rejected m ->
  processFile getDocument (Fulfilled buffer) now file = None /\
  handleFileUpload getDocument (Fulfilled buffer) now (Some (file :: others)) s = s.
Proof.
  intros Htype Hfail.
  assert (processFile getDocument (Fulfilled buffer) now file = None) as Hpending.
  { unfold processFile. rewrite Hfail.
    destruct (String.eqb_spec (File.type file) "application/pdf") as [_ | Hne];
      [done | by destruct Hne]. }
  split; [done |]. unfold handleFileUpload. by rewrite Hpending.
Qed.

Lemma handleFileUpload_pdf_failure_witness :
  processFile (fun _ => Fulfilled brokenPdf) (Fulfilled []) 1700000000000 reportPdf = None /\
  handleFileUpload (fun _ => Fulfilled brokenPdf) (Fulfilled []) 1700000000000
    (Some [reportPdf]) askingState = askingState.
Proof.
  apply (handleFileUpload_pdf_failure (fun _ => Fulfilled brokenPdf) [] 1700000000000
           reportPdf [] "Invalid page" askingState); reflexivity.
Defined.

(** X4.  When the file cannot be read, [processFile] rejects with
    [File read error] whatever the reader's own message was, and the
    upload handler leaves the whole state as it was, whatever was
    selected: the failure is not shown as an error. *)
Theorem handleFileUpload_read_error
    (getDocument : list Byte.byte -> outcome PDFDocumentProxy)
    (m : string) (now : Z) (selection : option (list File.t)) (s : State) :
  (forall file, processFile getDocument (Rejected m) now file =
                  Some (Rejected "File read error")) /\
  handleFileUpload getDocument (Rejected m) now selection s = s.
Proof.
  split; [done |]. by destruct selection as [[|file others]|].
Qed.

(** ** Files that are not PDFs *)

(** X5.  A file whose declared type is not exactly [application/pdf] is
    ingested with the buffer as read, pdf.js not being asked; and the
    block it contributes to a prompt shows [[object ArrayBuffer]] for its
    content, whatever its bytes are. *)
Theorem processFile_other_types
    (getDocument : list Byte.byte -> outcome PDFDocumentProxy)
    (buffer : list Byte.byte) (now : Z) (file : File.t) :
  File.type file <> "application/pdf" ->
  processFile getDocument (Fulfilled buffer) now file =
    Some (Fulfilled (ingested now file (ArrayBuffer buffer))) /\
  fileBlock (ingested now file (ArrayBuffer buffer)) =
    "File: " +:+ File.name file +:+ LF +:+ "Content: [object ArrayBuffer]...".
Proof.
  intros Htype. split; [| reflexivity].
  unfold processFile.
  destruct (String.eqb_spec (File.type file) "application/pdf") as [Heq | _];
    [by destruct Htype | done].
Qed.

Lemma processFile_other_types_witness :
  processFile (fun _ => Rejected "not a PDF") (Fulfilled (list_byte_of_string "hello world"))
    1700000000000 notesTxt =
    Some (Fulfilled (ingested 1700000000000 notesTxt
                       (ArrayBuffer (list_byte_of_string "hello world")))) /\
  fileBlock (ingested 1700000000000 notesTxt
               (ArrayBuffer (list_byte_of_string "hello world"))) =
    "File: " +:+ "notes.txt" +:+ LF +:+ "Content: [object ArrayBuffer]...".
Proof.
  apply (processFile_other_types (fun _ => Rejected "not a PDF")
           (list_byte_of_string "hello world") 1700000000000 notesTxt).
  discriminate.
Defined.

(** ** Removing files *)

(** X6.  After [removeFile id] the files held are those held before whose
    id is not [id]; question, response, loading flag and error are as
    before. *)
Theorem removeFile_spec (id : Z) (s : State) :
  (forall f, f ∈ files (removeFile id s) <-> f ∈ files s /\ IngestedFile.id f <> id) /\
  query (removeFile id s) = query s /\
  response (removeFile id s) = response s /\
  loading (removeFile id s) = loading s /\
  error (removeFile id s) = error s.
Proof.
  split; [| done]. intros f. unfold removeFile. simpl.
  rewrite list_elem_of_filter. tauto.
Qed.

Lemma filter_all {A : Type} (P : A -> Prop) `{forall x, Decision (P x)} (l : list A) :
  (forall x, x ∈ l -> P x) -> filter P l = l.
Proof.
  induction l as [|x l IH]; intros Hall; [done |].
  rewrite filter_cons_True by (apply Hall; left).
  f_equal. apply IH. intros y Hy. apply Hall. by right.
Qed.

(** X7.  Removing an id that no held file has changes nothing. *)
Theorem removeFile_unknown_id (id : Z) (s : State) :
  (forall f, f ∈ files s -> IngestedFile.id f <> id) ->
  removeFile id s = s.
Proof.
  intros Hnone. unfold removeFile. rewrite filter_all by done. by destruct s.
Qed.

Lemma removeFile_unknown_id_witness : removeFile 42 askingState = askingState.
Proof.
  apply (removeFile_unknown_id 42 askingState).
  intros f Hf. apply list_elem_of_singleton in Hf as ->. discriminate.
Defined.

Lemma processFile_id
    (getDocument : list Byte.byte -> outcome PDFDocumentProxy)
    (read : outcome (list Byte.byte)) (now : Z) (file : File.t)
    (processed : IngestedFile.t) :
  processFile getDocument read now file = Some (Fulfilled processed) ->
  IngestedFile.id processed = now.
Proof.
  unfold processFile. destruct read as [content|m]; [| discriminate].
  destruct (File.type file =? "application/pdf").
  - destruct (extractTextFromPdf getDocument content); [| discriminate].
    by intros [= <-].
  - by intros [= <-].
Qed.

(** X8.  An upload that succeeds, followed by the removal of the id it
    gave (the clock's reading), leaves no file held, whatever was held
    before the upload. *)
Theorem upload_then_remove
    (getDocument : list Byte.byte -> outcome PDFDocumentProxy)
    (read : outcome (list Byte.byte)) (now : Z)
    (file : File.t) (others : list File.t) (processed : IngestedFile.t) (s : State) :
  processFile getDocument read now file = Some (Fulfilled processed) ->
  files (handleFileUpload getDocument read now (Some (file :: others)) s) = [processed] /\
  files (removeFile now
           (handleFileUpload getDocument read now (Some (file :: others)) s)) = [].
Proof.
  intros Hp. pose proof (processFile_id _ _ _ _ _ Hp) as Hid.
  unfold handleFileUpload, removeFile. rewrite Hp. split; [done |].
  simpl. rewrite filter_cons_False; [done |]. intros Hne. by apply Hne.
Qed.

Lemma upload_then_remove_witness :
  files (handleFileUpload (fun _ => Fulfilled twoPagePdf) (Fulfilled []) 1700000000123
           (Some [reportPdf; notesTxt]) askingState) =
    [ingested 1700000000123 reportPdf (Text ("Hello world" +:+ LF +:+ "Bye" +:+ LF))] /\
  files (removeFile 1700000000123
           (handleFileUpload (fun _ => Fulfilled twoPagePdf) (Fulfilled []) 1700000000123
              (Some [reportPdf; notesTxt]) askingState)) = [].
Proof.
  apply (upload_then_remove (fun _ => Fulfilled twoPagePdf) (Fulfilled []) 1700000000123
           reportPdf [notesTxt]
           (ingested 1700000000123 reportPdf (Text ("Hello world" +:+ LF +:+ "Bye" +:+ LF)))
           askingState).
  reflexivity.
Defined.

(** ** The records held in state *)

Lemma processFile_wellIngested
    (getDocument : list Byte.byte -> outcome PDFDocumentProxy)
    (read : outcome (list Byte.byte)) (now : Z) (file : File.t)
    (processed : IngestedFile.t) :
  processFile getDocument read now file = Some (Fulfilled processed) ->
  wellIngested processed.
Proof.
  unfold processFile. destruct read as [content|m]; [| discriminate].
  destruct (String.eqb_spec (File.type file) "application/pdf") as [Heq | Hne].
  - destruct (extractTextFromPdf getDocument content) as [txt|]; [| discriminate].
    intros [= <-]. split; [done |]. left. split; [done | by exists txt].
  - intros [= <-]. split; [done |]. right. split; [done | by exists content].
Qed.

Lemma step_wellIngested (s : State) (e : Event) :
  Forall wellIngested (files s) -> Forall wellIngested (files (step s e)).
Proof.
  intros Hs. destruct e as [getDocument read now selection | id | q | nullMessage fetch];
    cbn [step].
  - unfold handleFileUpload. destruct selection as [[|file others]|]; try done.
    destruct (processFile getDocument read now file) as [[processed|m]|] eqn:Hp;
      try done.
    simpl. constructor; [| constructor]. by eapply processFile_wellIngested.
  - unfold removeFile. simpl. rewrite Forall_forall in Hs. apply Forall_forall.
    intros f Hf. apply list_elem_of_filter in Hf as [_ Hf]. by apply Hs.
  - done.
  - by rewrite handleQuery_files.
Qed.

Lemma run_wellIngested (events : list Event) (s : State) :
  Forall wellIngested (files s) ->
  Forall wellIngested (files (fold_left step events s)).
Proof.
  revert s. induction events as [|e events IH]; intros s Hs; simpl; [done |].
  apply IH. by apply step_wellIngested.
Qed.

(** X9.  However the component is driven from its initial state, every
    file it holds has the category that [getFileCategory] gives for the
    record's own type and name, and has a content: extracted text when its
    type is exactly [application/pdf], the buffer read otherwise.  So the
    content is never absent when a prompt is built. *)
Theorem held_files_wellIngested (events : list Event) (f : IngestedFile.t) :
  f ∈ files (run events) ->
  wellIngested f /\ IngestedFile.content f <> None.
Proof.
  intros Hf.
  assert (wellIngested f) as Hw.
  { assert (Forall wellIngested (files (run events))) as Hall
      by (apply run_wellIngested; constructor).
    rewrite Forall_forall in Hall. by apply Hall. }
  split; [done |].
  destruct Hw as [_ [[_ [t ->]] | [_ [bytes ->]]]]; discriminate.
Qed.

Lemma held_files_wellIngested_witness :
  wellIngested (ingested 1700000000123 notesTxt (ArrayBuffer [])) /\
  IngestedFile.content (ingested 1700000000123 notesTxt (ArrayBuffer [])) <> None.
Proof.
  apply (held_files_wellIngested
           [FileChosen (fun _ => Rejected "not a PDF") (Fulfilled []) 1700000000123
              (Some [notesTxt]);
            QueryTyped "why?"]).
  left.
Defined.

(** ** What reaches the prompt *)

Lemma firstChars_app (n : nat) (a b : string) :
  n <= String.length a -> firstChars n (a +:+ b) = firstChars n a.
Proof.
  revert a. induction n as [|n IH]; intros [|c a] Hlen; simpl in *; try done.
  - lia.
  - rewrite IH; [done | lia].
Qed.

(** X10.  An extracted text of at most 1000 characters goes into the
    file's block whole, and the marker [...] follows it all the same,
    though nothing was cut. *)
Theorem fileBlock_short_text (f : IngestedFile.t) (t : string) :
  IngestedFile.content f = Some (Text t) ->
  String.length t <= 1000 ->
  fileBlock f =
    "File: " +:+ IngestedFile.name f +:+ LF +:+ "Content: " +:+ t +:+ "...".
Proof.
  intros Hc Hlen. unfold fileBlock. rewrite Hc. unfold contentSegment, contentToString.
  by rewrite slice_firstChars, firstChars_short.
Qed.

Lemma fileBlock_short_text_witness :
  fileBlock (textFile "report.pdf" "Hello world") =
    "File: " +:+ "report.pdf" +:+ LF +:+ "Content: " +:+ "Hello world" +:+ "...".
Proof.
  apply (fileBlock_short_text (textFile "report.pdf" "Hello world") "Hello world").
  - reflexivity.
  - vm_compute. lia.
Defined.

(** X11.  What an extracted text holds after its first 1000 characters
    never reaches the prompt: two files of the same name whose texts agree
    on a first part of 1000 characters or more give the same block, and so
    the same prompt for the same question. *)
Theorem fileBlock_ignores_tail (f f' : IngestedFile.t) (a b b' : string)
    (question : string) :
  IngestedFile.name f = IngestedFile.name f' ->
  IngestedFile.content f = Some (Text (a +:+ b)) ->
  IngestedFile.content f' = Some (Text (a +:+ b')) ->
  1000 <= String.length a ->
  fileBlock f = fileBlock f' /\
  composePrompt [f] question = composePrompt [f'] question.
Proof.
  intros Hname Hc Hc' Hlen.
  assert (fileBlock f = fileBlock f') as Hblock.
  { unfold fileBlock. rewrite Hname, Hc, Hc'. unfold contentSegment, contentToString.
    by rewrite !slice_firstChars, !firstChars_app. }
  split; [done |]. unfold composePrompt, buildContext. simpl map. by rewrite Hblock.
Qed.

Lemma fileBlock_ignores_tail_witness :
  fileBlock (textFile "report.pdf" (thousandChars +:+ "The end."))
  = fileBlock (textFile "report.pdf" (thousandChars +:+ "Another end.")) /\
  composePrompt [textFile "report.pdf" (thousandChars +:+ "The end.")] "why?"
  = composePrompt [textFile "report.pdf" (thousandChars +:+ "Another end.")] "why?".
Proof.
  apply (fileBlock_ignores_tail
           (textFile "report.pdf" (thousandChars +:+ "The end."))
           (textFile "report.pdf" (thousandChars +:+ "Another end."))
           thousandChars "The end." "Another end." "why?").
  - reflexivity.
  - reflexivity.
  - reflexivity.
  - vm_compute. lia.
Defined.

(** X12.  The question goes into the prompt as typed: for the same files,
    questions that differ (be it only in white space around them, which
    the validation trims away) give prompts that differ. *)
Theorem composePrompt_question_as_typed (fs : list IngestedFile.t)
    (question question' : string) :
  question <> question' ->
  composePrompt fs question <> composePrompt fs question'.
Proof.
  intros Hne Heq. apply Hne. unfold composePrompt in Heq.
  repeat apply (inj (String.append _)) in Heq. done.
Qed.

Lemma composePrompt_question_as_typed_witness :
  composePrompt [notesFile] "why?" <> composePrompt [notesFile] " why? ".
Proof.
  apply (composePrompt_question_as_typed [notesFile] "why?" " why? ").
  discriminate.
Defined.

(** ** The case of a file name *)

Lemma canonicalize_idemp (c : ascii) : canonicalize (canonicalize c) = canonicalize c.
Proof. destruct c as [[] [] [] [] [] [] [] []]; reflexivity. Qed.

Lemma foldCase_idemp (s : string) : foldCase (foldCase s) = foldCase s.
Proof. induction s as [|c s IH]; simpl; [done |]. by rewrite canonicalize_idemp, IH. Qed.

Lemma matchLit_foldCase (w s : string) :
  matchLit w (foldCase s) = foldCase <$> matchLit w s.
Proof.
  revert s. induction w as [|c w IH]; intros [|d s]; simpl; try done.
  rewrite canonicalize_idemp. destruct (Ascii.eqb _ _); [apply IH | done].
Qed.

Lemma matchK_foldCase (r : regex) :
  forall (s : string) (k k' : string -> bool),
    (forall t, k' (foldCase t) = k t) ->
    matchK r (foldCase s) k' = matchK r s k.
Proof.
  induction r as [w | r1 IH1 r2 IH2 | r1 IH1 r2 IH2 |]; intros s k k' Hk; simpl.
  - rewrite matchLit_foldCase. destruct (matchLit w s); simpl; [apply Hk | done].
  - by rewrite (IH1 s k k'), (IH2 s k k').
  - apply IH1. intros t. by apply IH2.
  - destruct s; simpl; [apply (Hk "") | done].
Qed.

Lemma regexMatch_foldCase (r : regex) (s : string) :
  regexMatch r (foldCase s) = regexMatch r s.
Proof.
  induction s as [|c s IH]; simpl.
  - done.
  - rewrite IH. f_equal. by apply (matchK_foldCase r (String c s)).
Qed.

Lemma getFileCategory_foldCase (type name : string) :
  getFileCategory type (foldCase name) = getFileCategory type name.
Proof. unfold getFileCategory. by rewrite !regexMatch_foldCase. Qed.

(** X13.  The case of the letters [a-z] in a file name never matters to
    the category: names that are equal up to that case get the same
    category under the same declared type. *)
Theorem getFileCategory_name_case (type name name' : string) :
  foldCase name = foldCase name' ->
  getFileCategory type name = getFileCategory type name'.
Proof.
  intros Hcase.
  by rewrite <- (getFileCategory_foldCase type name),
    <- (getFileCategory_foldCase type name'), Hcase.
Qed.

Lemma getFileCategory_name_case_witness :
  getFileCategory "" "Holiday.JPeG" = getFileCategory "" "holiday.jpeg".
Proof.
  apply (getFileCategory_name_case "" "Holiday.JPeG" "holiday.jpeg").
  reflexivity.
Defined.

(** ** Requests and what comes of them *)

(** X14.  [handleQuery] sends its one request exactly when the question
    is not blank and a file is held, and sends nothing otherwise; whatever
    [fetch] answers, there is no second request.  The request is a POST of
    JSON to the fixed endpoint, carrying the prompt under [prompt]. *)
Theorem handleQuery_requests (nullMessage : string)
    (fetch : Request -> outcome Response) (s : State) :
  (snd (handleQuery nullMessage fetch s) = [queryRequest s] <->
     whitespaceOnly (query s) = false /\ files s <> []) /\
  (snd (handleQuery nullMessage fetch s) = [] <->
     whitespaceOnly (query s) = true \/ files s = []) /\
  url (queryRequest s) = "http://localhost:5000/api/query" /\
  method (queryRequest s) = "POST" /\
  headers (queryRequest s) = [("Content-Type", "application/json")] /\
  body (queryRequest s) =
    JObj {[ "prompt" := JStr (composePrompt (files s) (query s)) ]}.
Proof.
  split; [| split; [| done]].
  - destruct (whitespaceOnly (query s)) eqn:Hq.
    + rewrite handleQuery_blank by done. simpl. split; [discriminate | by intros [? _]].
    + destruct (files s) as [|f fs] eqn:Hf.
      * rewrite handleQuery_no_files by done. simpl.
        split; [discriminate | by intros [_ ?]].
      * rewrite handleQuery_dispatch by (done || by rewrite Hf). done.
  - destruct (whitespaceOnly (query s)) eqn:Hq.
    + rewrite handleQuery_blank by done. simpl. split; [by left | done].
    + destruct (files s) as [|f fs] eqn:Hf.
      * rewrite handleQuery_no_files by done. simpl. split; [by right | done].
      * rewrite handleQuery_dispatch by (done || by rewrite Hf). simpl.
        split; [discriminate | by intros [? | ?]].
Qed.

(** X15.  When the body parses to an object whose [answer] is truthy,
    that very value becomes the response, and no error is set. *)
Theorem handleQuery_answer_shown (nullMessage : string)
    (fetch : Request -> outcome Response) (s : State)
    (res : Response) (properties : gmap string JsValue) (v : JsValue) :
  whitespaceOnly (query s) = false -> files s <> [] ->
  fetch (queryRequest s) = Fulfilled res ->
  json res = Fulfilled (JObj properties) ->
  properties !! "answer" = Some v -> truthy v = true ->
  handleQuery nullMessage fetch s =
    ({| files := files s; query := query s; response := v;
        loading := false; error := "" |},
     [queryRequest s]).
Proof.
  intros Hq Hf Hres Hjson Hv Htruthy.
  rewrite (handleQuery_parsed nullMessage fetch s Hq Hf res (JObj properties)) by done.
  cbn [answerOf]. rewrite Hv. cbn [orNoResponse]. by rewrite Htruthy.
Qed.

Lemma handleQuery_answer_shown_witness :
  handleQuery nullMessageV8
    (respond true 200 (JObj {[ "answer" := JStr "It says hello world." ]}))
    askingState =
    ({| files := [notesFile]; query := "what does the file say?";
        response := JStr "It says hello world."; loading := false; error := "" |},
     [queryRequest askingState]).
Proof.
  refine (handleQuery_answer_shown nullMessageV8
            (respond true 200 (JObj {[ "answer" := JStr "It says hello world." ]}))
            askingState
            {| ok := true; status := 200;
               json := Fulfilled (JObj {[ "answer" := JStr "It says hello world." ]}) |}
            {[ "answer" := JStr "It says hello world." ]}
            (JStr "It says hello world.") _ _ _ _ _ _); on_sample.
Defined.

Lemma handleQuery_null_body_witness :
  handleQuery nullMessageV8 (respond true 200 JNull) askingState =
    (settled askingState (JStr "")
       "Backend error: Cannot read properties of null (reading 'answer')",
     [queryRequest askingState]).
Proof.
  refine (handleQuery_null_body nullMessageV8 (respond true 200 JNull) askingState _ _
            {| ok := true; status := 200; json := Fulfilled JNull |} _ _); on_sample.
Defined.

(** X17.  However the component is driven from its initial state, a
    request it sends carries the block of exactly one file, the one held:
    the prompt is [Context:], the file's name and segment, and the
    question, where the segment is the first 1000 characters of the
    extracted text of a PDF and [[object ArrayBuffer]] for any other
    file. *)
Theorem run_request_prompt (events : list Event) (nullMessage : string)
    (fetch : Request -> outcome Response) (req : Request) :
  req ∈ snd (handleQuery nullMessage fetch (run events)) ->
  exists f,
    files (run events) = [f] /\
    body req =
      JObj {[ "prompt" :=
                JStr ("Context:" +:+ LF +:+ "File: " +:+ IngestedFile.name f +:+ LF
                      +:+ "Content: " +:+ segmentOf f +:+ "..." +:+ LF +:+ LF
                      +:+ "Query:" +:+ LF +:+ query (run events)) ]}.
Proof.
  pose proof (fold_step_at_most_one_file events initialState) as Hlen.
  fold (run events) in Hlen. specialize (Hlen ltac:(simpl; lia)).
  generalize dependent (run events). intros s Hlen Hreq.
  destruct (whitespaceOnly (query s)) eqn:Hq.
  { rewrite handleQuery_blank in Hreq by done. by apply elem_of_nil in Hreq. }
  destruct (files s) as [|f [|g fs]] eqn:Hf.
  - rewrite handleQuery_no_files in Hreq by done. by apply elem_of_nil in Hreq.
  - rewrite handleQuery_dispatch in Hreq by (done || by rewrite Hf).
    apply list_elem_of_singleton in Hreq as ->.
    exists f. split; [done |].
    unfold queryRequest, composePrompt, buildContext. rewrite Hf.
    cbn [body map join String.concat]. unfold fileBlock.
    rewrite segmentOf_contentSegment, !string_app_assoc. done.
  - simpl in Hlen. lia.
Qed.

Lemma run_request_prompt_witness :
  exists f,
    files (run [FileChosen (fun _ => Rejected "not a PDF") (Fulfilled []) 1700000000123
                  (Some [notesTxt]);
                QueryTyped "why?"]) = [f] /\
    body (queryRequest
            (run [FileChosen (fun _ => Rejected "not a PDF") (Fulfilled []) 1700000000123
                    (Some [notesTxt]);
                  QueryTyped "why?"])) =
      JObj {[ "prompt" :=
                JStr ("Context:" +:+ LF +:+ "File: " +:+ IngestedFile.name f +:+ LF
                      +:+ "Content: " +:+ segmentOf f +:+ "..." +:+ LF +:+ LF
                      +:+ "Query:" +:+ LF
                      +:+ query (run [FileChosen (fun _ => Rejected "not a PDF")
                                        (Fulfilled []) 1700000000123 (Some [notesTxt]);
                                      QueryTyped "why?"])) ]}.
Proof.
  apply (run_request_prompt
           [FileChosen (fun _ => Rejected "not a PDF") (Fulfilled []) 1700000000123
              (Some [notesTxt]);
            QueryTyped "why?"]
           nullMessageV8 (respond true 200 JNull)).
  left.
Defined.

(** ** What is on screen *)


(** Whether rendering throws depends on the response alone. *)
Lemma render_throws (s : State) :
  render s = None <-> truthy (response s) && negb (validChild (response s)) = true.
Proof. unfold render. by destruct (truthy (response s) && _). Qed.

Lemma render_view (s : State) (v : View) :
  render s = Some v ->
  fileRows v = map (fun f => (IngestedFile.id f, IngestedFile.name f)) (files s) /\
  buttonDisabled v = loading s /\
  errorPanel v = (if isEmpty (error s) then None else Some (error s)) /\
  responsePanel v = (if truthy (response s) then Some (response s) else None).
Proof.
  unfold render. destruct (truthy (response s) && _); [discriminate |].
  intros [= <-]. simpl. by destruct (files s).
Qed.



(** X19.  However the component is driven from its initial state, when
    the screen lists a row, the bin button of the row (it removes the
    row's key) leaves a screen whose file list is empty. *)
Theorem remove_listed_row (events : list Event) (key : Z) (name : string) (v : View) :
  render (run events) = Some v ->
  (key, name) ∈ fileRows v ->
  exists v', render (removeFile key (run events)) = Some v' /\ fileRows v' = [].
Proof.
  pose proof (fold_step_at_most_one_file events initialState) as Hlen.
  fold (run events) in Hlen. specialize (Hlen ltac:(simpl; lia)).
  generalize dependent (run events). intros s Hlen Hv Hrow.
  destruct (render (removeFile key s)) as [v'|] eqn:Hv'.
  - exists v'. split; [done |].
    apply render_view in Hv as (Hrows & _). apply render_view in Hv' as (-> & _).
    rewrite Hrows in Hrow. unfold removeFile. cbn [files setFiles].
    destruct (files s) as [|f [|g fs]]; simpl in *.
    + by apply elem_of_nil in Hrow.
    + apply list_elem_of_singleton in Hrow as [= -> _].
      rewrite filter_cons_False; [done |]. intros Hne. by apply Hne.
    + lia.
  - apply render_throws in Hv'. unfold removeFile in Hv'. cbn [response setFiles] in Hv'.
    apply render_throws in Hv'. congruence.
Qed.

Lemma remove_listed_row_witness :
  exists v',
    render (removeFile 1700000000123
              (run [FileChosen (fun _ => Rejected "not a PDF") (Fulfilled [])
                      1700000000123 (Some [notesTxt])])) = Some v' /\
    fileRows v' = [].
Proof.
  refine (remove_listed_row
            [FileChosen (fun _ => Rejected "not a PDF") (Fulfilled []) 1700000000123
               (Some [notesTxt])]
            1700000000123 "notes.txt"
            {| fileRows := [(1700000000123%Z, "notes.txt")]; questionBox := "";
               buttonDisabled := false; buttonLabel := "Search";
               errorPanel := None; responsePanel := None |} _ _).
  - reflexivity.
  - left.
Defined.

(** An answer that is an object is set as the response, and rendering it
    throws. *)
Example render_object_answer :
  render (fst (handleQuery nullMessageV8
                 (respond true 200 (JObj {[ "answer" := JObj {[ "text" := JStr "hi" ]} ]}))
                 askingState)) = None.
Proof. reflexivity. Qed.
